(** * The simple routing queue resource: lifecycle functions

    A shallow embedding of
    [genesyscloud/simple_routing_queue/resource_genesyscloud_simple_routing_queue.go]:
    the four lifecycle functions of the [genesyscloud_simple_routing_queue]
    resource (create, read, update, delete), their retry callbacks, and the
    copy of the observed queue into the resource data.

    The functions talk to the Genesys Cloud API through a proxy, keep their
    local state in a [schema.ResourceData], sleep, and poll.  All of that is
    threaded explicitly through a state-and-panic monad over a [World]
    record: the resource data, the state of the remote side, a wall clock in
    nanoseconds, and the trace of everything the function did. *)

From Stdlib Require Import ZArith String List Lia.
From stdpp Require Import base gmap strings.

Local Open Scope string_scope.
Local Open Scope list_scope.

(** ** Data as the Go code has it *)

(** A Go [error], identified with the text of its [Error()] method; a nilable
    error is an [option error]. *)
Definition error := string.

(** [platformclientv2.Queue]: every field is a pointer, hence optional. *)
Module Queue.
Record t := mk {
  Id : option string;
  Name : option string;
  CallingPartyName : option string;
  EnableTranscription : option bool }.
End Queue.

(** [platformclientv2.Createqueuerequest], the three fields the resource fills. *)
Module Createqueuerequest.
Record t := mk {
  Name : option string;
  CallingPartyName : option string;
  EnableTranscription : option bool }.
End Createqueuerequest.

(** [platformclientv2.Queuerequest], the three fields the resource fills. *)
Module Queuerequest.
Record t := mk {
  Name : option string;
  CallingPartyName : option string;
  EnableTranscription : option bool }.
End Queuerequest.

(** [resource.RetryError] of the Terraform SDK: [struct { Err error; Retryable bool }].
    A retry callback returns a [*RetryError]; [nil] is [None]. *)
Record RetryError := mkRetryError { Err : error; Retryable : bool }.

Definition RetryableError (err : error) : option RetryError :=
  Some {| Err := err; Retryable := true |}.

Definition NonRetryableError (err : error) : option RetryError :=
  Some {| Err := err; Retryable := false |}.

(** [diag.Diagnostics]: a list of diagnostics, empty (nil) on success. *)
Module diag.
Inductive Severity := Error | Warning.
Record Diagnostic := mk { severity : Severity; Summary : string }.
Definition Diagnostics := list Diagnostic.
Definition Errorf (msg : string) : Diagnostics :=
  [ {| severity := Error; Summary := msg |} ].
Definition FromErr (err : option error) : Diagnostics :=
  match err with
  | None => []
  | Some e => Errorf e
  end.
End diag.

(** The dynamic values a [schema.ResourceData] of this resource stores:
    [name] and [calling_party_name] are strings, [enable_transcription] is a
    bool. *)
Inductive value := VString (s : string) | VBool (b : bool).

(** [schema.ResourceData]: the identity ([d.Id()], empty before creation) and
    the attribute store behind [d.Get] and [d.Set]. *)
Record ResourceData := mkResourceData {
  rdId : string;
  rdAttrs : gmap string value }.

(** [d.Get(key).(string)] on a string attribute: the SDK yields the zero value
    of the attribute's type when it is unset, and the schema fixes the dynamic
    type, so the assertion does not fail. *)
Definition GetString (d : ResourceData) (key : string) : string :=
  match rdAttrs d !! key with
  | Some (VString s) => s
  | _ => EmptyString
  end.

(** [d.Get(key).(bool)] on a bool attribute. *)
Definition GetBool (d : ResourceData) (key : string) : bool :=
  match rdAttrs d !! key with
  | Some (VBool b) => b
  | _ => false
  end.

(** [d.Set(key, v)]. *)
Definition Set_ (key : string) (v : value) (d : ResourceData) : ResourceData :=
  {| rdId := rdId d; rdAttrs := <[key := v]> (rdAttrs d) |}.

(** [d.SetId(id)]. *)
Definition SetId (id : string) (d : ResourceData) : ResourceData :=
  {| rdId := id; rdAttrs := rdAttrs d |}.

(** [time.Duration] counts nanoseconds. *)
Module time.
Definition Duration := Z.
Definition Second : Duration := 1000000000%Z.
End time.

(** What a lifecycle function does to the outside, in order. *)
Inductive Event :=
| EvLog (msg : string)
| EvCreate (req : Createqueuerequest.t)
| EvGet (id : string)
| EvUpdate (id : string) (req : Queuerequest.t)
| EvDelete (id : string)
| EvSleep (dur : time.Duration).

(** What the proxy hands back for one call: the Go return values and the wall
    time the call took. *)
Record Reply (A : Type) := mkReply { answer : A; took : time.Duration }.
Arguments mkReply {A} _ _.
Arguments answer {A} _.
Arguments took {A} _.

(** The proxy of the package ([getSimpleRoutingQueueProxy(sdkConfig)]), over
    an arbitrary state [R] of the remote side.  In Go, create and update
    return a queue pointer, an API response (unused by the resource) and an
    error; get returns a queue pointer, the integer status code and an error;
    delete returns an API response and an error. *)
Record Proxy (R : Type) := mkProxy {
  createRoutingQueue :
    Createqueuerequest.t -> R -> Reply (option Queue.t * option error) * R;
  getRoutingQueue :
    string -> R -> Reply (option Queue.t * Z * option error) * R;
  updateRoutingQueue :
    string -> Queuerequest.t -> R -> Reply (option Queue.t * option error) * R;
  deleteRoutingQueue :
    string -> R -> Reply (option error) * R }.
Arguments createRoutingQueue {R} _ _ _.
Arguments getRoutingQueue {R} _ _ _.
Arguments updateRoutingQueue {R} _ _ _ _.
Arguments deleteRoutingQueue {R} _ _ _.

(** ** The monad: state, panic, and fuel for the polling loop *)

Record World (R : Type) := mkWorld {
  d : ResourceData;
  remote : R;
  clock : Z;
  trace : list Event }.
Arguments mkWorld {R} _ _ _ _.
Arguments d {R} _.
Arguments remote {R} _.
Arguments clock {R} _.
Arguments trace {R} _.

(** A run returns normally, panics (a nil pointer dereference), or is cut
    short because the polling loop was given too little fuel. *)
Inductive Outcome (R A : Type) :=
| Returned (a : A) (w : World R)
| Panicked (w : World R)
| OutOfFuel (w : World R).
Arguments Returned {R A} _ _.
Arguments Panicked {R A} _.
Arguments OutOfFuel {R A} _.

Definition M (R A : Type) := World R -> Outcome R A.

Definition ret {R A} (a : A) : M R A := fun w => Returned a w.

Definition bind {R A B} (m : M R A) (k : A -> M R B) : M R B :=
  fun w =>
    match m w with
    | Returned a w' => k a w'
    | Panicked w' => Panicked w'
    | OutOfFuel w' => OutOfFuel w'
    end.

Declare Scope go_scope.
Delimit Scope go_scope with go.
Notation "x <- c1 ;; c2" := (bind c1 (fun x => c2))
  (at level 100, c1 at next level, right associativity) : go_scope.
Notation "c1 ;; c2" := (bind c1 (fun _ => c2))
  (at level 100, right associativity) : go_scope.
Local Open Scope go_scope.

Definition panic {R A} : M R A := fun w => Panicked w.

Definition outOfFuel {R A} : M R A := fun w => OutOfFuel w.

(** The world a run ends in, however it ends. *)
Definition final {R A} (o : Outcome R A) : World R :=
  match o with
  | Returned _ w => w
  | Panicked w => w
  | OutOfFuel w => w
  end.

(** Dereferencing a pointer panics on nil. *)
Definition deref {R A} (p : option A) : M R A :=
  match p with
  | Some a => ret a
  | None => panic
  end.

(** The worlds the primitive actions lead to. *)
Definition emitted {R} (e : Event) (w : World R) : World R :=
  mkWorld (d w) (remote w) (clock w) (trace w ++ [e]).

Definition logged {R} (msg : string) (w : World R) : World R :=
  emitted (EvLog msg) w.

Definition slept {R} (dur : time.Duration) (w : World R) : World R :=
  mkWorld (d w) (remote w) (clock w + Z.max 0 dur) (trace w ++ [EvSleep dur]).

Definition withD {R} (rd : ResourceData) (w : World R) : World R :=
  mkWorld rd (remote w) (clock w) (trace w).

(** One call through the proxy: it is recorded, the remote side moves on and
    the clock advances by the time the call took. *)
Definition replyOf {R A} (op : R -> Reply A * R) (w : World R) : A :=
  answer (fst (op (remote w))).

Definition called {R A} (e : Event) (op : R -> Reply A * R) (w : World R) : World R :=
  mkWorld (d w) (snd (op (remote w))) (clock w + took (fst (op (remote w))))
    (trace w ++ [e]).

(** [log.Printf]. *)
Definition log_Printf {R} (msg : string) : M R unit :=
  fun w => Returned tt (logged msg w).

(** [time.Sleep]: returns at once for a non-positive duration. *)
Definition time_Sleep {R} (dur : time.Duration) : M R unit :=
  fun w => Returned tt (slept dur w).

Definition time_Now {R} : M R Z := fun w => Returned (clock w) w.

(** The resource data [d] is one shared object behind a pointer. *)
Definition getD {R} : M R ResourceData := fun w => Returned (d w) w.

Definition modifyD {R} (f : ResourceData -> ResourceData) : M R unit :=
  fun w => Returned tt (withD (f (d w)) w).

Definition call {R A} (e : Event) (op : R -> Reply A * R) : M R A :=
  fun w => Returned (replyOf op w) (called e op w).

(** [d.Id()]. *)
Definition d_Id {R} : M R string := fun w => Returned (rdId (d w)) w.

(** [d.Set(key, v)] on the shared resource data.  The error [d.Set] may return
    is dropped by every caller in this package. *)
Definition d_Set {R} (key : string) (v : value) : M R unit := modifyD (Set_ key v).

(** Modelled from the spec: [resourcedata.SetNillableValue], a helper of
    package [genesyscloud/util/resourcedata] whose body this file does not
    embed.  The spec (4.3) says that a field absent from the observed payload
    leaves the local value untouched, and that a present one is copied
    forward. *)
Definition SetNillableValue {R T} (inj : T -> value) (key : string) (v : option T)
  : M R unit :=
  match v with
  | Some x => d_Set key (inj x)
  | None => ret tt
  end.

(** The text Go's [fmt] prints for a nil error under the verb [%s]. *)
Definition fmt_nil_s : string := "%!s(<nil>)".

(** Modelled from the spec: the error the Retry/Poll Engine reports when the
    ceiling elapses, a timeout describing the last retryable reason (4.2). *)
Definition timeoutError (last : error) : error := "timeout: " +:+ last.



(** Counting events of one kind in a trace. *)
Fixpoint countEv (p : Event -> bool) (tr : list Event) : nat :=
  match tr with
  | [] => 0
  | e :: tr' => (if p e then 1 else 0) + countEv p tr'
  end.

Definition isCreate (e : Event) : bool :=
  match e with EvCreate _ => true | _ => false end.

Definition isUpdate (e : Event) : bool :=
  match e with EvUpdate _ _ => true | _ => false end.

Definition isGet (e : Event) : bool :=
  match e with EvGet _ => true | _ => false end.

(** The events a read leaves behind: log lines and gets for one identity. *)
Definition readEvent (id : string) (e : Event) : bool :=
  match e with
  | EvLog _ => true
  | EvGet id' => bool_decide (id' = id)
  | _ => false
  end.

(** The observed payload, field by field under the names of the schema. *)
Definition observed (q : Queue.t) (key : string) : option value :=
  if decide (key = "name") then VString <$> Queue.Name q
  else if decide (key = "calling_party_name") then VString <$> Queue.CallingPartyName q
  else if decide (key = "enable_transcription") then VBool <$> Queue.EnableTranscription q
  else None.


(** ** The lifecycle functions *)

Section Lifecycle.

Context {R : Type}.

(** The proxy obtained from the provider's meta. *)
Variable proxy : Proxy R.

(** [gcloud.IsStatus404ByInt], the not-found classifier of status codes.  It
    belongs to package [genesyscloud] and is left abstract here. *)
Variable IsStatus404ByInt : Z -> bool.

(** The verdict of the consistency checker: [CheckState original current] is
    what [cc.CheckState()] returns when [cc] was created by
    [NewConsistencyCheck] while the resource data was [original] and the
    resource data is [current] now.  The checker belongs to package
    [consistency_checker] and is left abstract here. *)
Variable CheckState : ResourceData -> ResourceData -> option RetryError.

(** The ceiling [gcloud.WithRetriesForRead] polls under.  The read function
    passes none; the default is chosen inside package [genesyscloud]. *)
Variable readCeiling : time.Duration.

(** Modelled from the spec: the loop of [gcloud.WithRetries], the Retry/Poll
    Engine of 4.2, which belongs to package [genesyscloud] and whose body
    this file does not embed.  The check is invoked repeatedly; a nil outcome is
    success, a non-retryable one ends the poll with that failure, a retryable
    one is retried with no sleep in between until the wall clock has reached
    the ceiling, and then the poll ends with a timeout describing the last
    retryable reason.  [fuel] bounds the number of attempts. *)
Fixpoint pollUntil (fuel : nat) (start : Z) (maxDuration : time.Duration)
    (checkFn : M R (option RetryError)) : M R diag.Diagnostics :=
  match fuel with
  | O => outOfFuel
  | S fuel' =>
      outcome <- checkFn ;;
      match outcome with
      | None => ret (diag.FromErr None)
      | Some e =>
          if Retryable e then
            now <- time_Now ;;
            if (maxDuration <=? now - start)%Z
            then ret (diag.FromErr (Some (timeoutError (Err e))))
            else pollUntil fuel' start maxDuration checkFn
          else ret (diag.FromErr (Some (Err e)))
      end
  end.

(** Modelled from the spec: [gcloud.WithRetries(ctx, timeout, method)]. *)
Definition WithRetries (fuel : nat) (timeout : time.Duration)
    (method : M R (option RetryError)) : M R diag.Diagnostics :=
  start <- time_Now ;;
  pollUntil fuel start timeout method.

(** Modelled from the spec: [gcloud.WithRetriesForRead(ctx, d, method)], the
    same engine under the read ceiling. *)
Definition WithRetriesForRead (fuel : nat)
    (method : M R (option RetryError)) : M R diag.Diagnostics :=
  WithRetries fuel readCeiling method.

(** Lines 91 to 93 of the read callback: the values of the queue returned by
    the API are set in the resource data.  The name is dereferenced as it is,
    the two other fields go through [SetNillableValue]. *)
Definition setQueueValues (currentQueue : option Queue.t) : M R unit :=
  q <- deref currentQueue ;;
  name <- deref (Queue.Name q) ;;
  d_Set "name" (VString name) ;;
  SetNillableValue VString "calling_party_name" (Queue.CallingPartyName q) ;;
  SetNillableValue VBool "enable_transcription" (Queue.EnableTranscription q).

(** The callback [readSimpleRoutingQueue] hands to [WithRetriesForRead]. *)
Definition readSimpleRoutingQueue_check : M R (option RetryError) :=
  id <- d_Id ;;
  got <- call (EvGet id) (getRoutingQueue proxy id) ;;
  let '(currentQueue, respCode, err) := got in
  match err with
  | Some err =>
      if IsStatus404ByInt respCode
      then ret (RetryableError ("failed to read queue " +:+ id +:+ ": " +:+ err))
      else ret (NonRetryableError ("failed to read queue " +:+ id +:+ ": " +:+ err))
  | None =>
      original <- getD ;;
      setQueueValues currentQueue ;;
      current <- getD ;;
      ret (CheckState original current)
  end.

Definition readSimpleRoutingQueue (fuel : nat) : M R diag.Diagnostics :=
  id <- d_Id ;;
  log_Printf ("Reading simple queue " +:+ id) ;;
  WithRetriesForRead fuel readSimpleRoutingQueue_check.

Definition createSimpleRoutingQueue (fuel : nat) : M R diag.Diagnostics :=
  dd <- getD ;;
  let name := GetString dd "name" in
  let callingPartyName := GetString dd "calling_party_name" in
  let enableTranscription := GetBool dd "enable_transcription" in
  log_Printf ("Creating simple queue " +:+ name) ;;
  let queueCreate :=
    Createqueuerequest.mk (Some name) (Some callingPartyName) (Some enableTranscription) in
  created <- call (EvCreate queueCreate) (createRoutingQueue proxy queueCreate) ;;
  let '(queueResp, err) := created in
  match err with
  | Some err => ret (diag.Errorf ("failed to create queue " +:+ name +:+ ": " +:+ err))
  | None =>
      q <- deref queueResp ;;
      id <- deref (Queue.Id q) ;;
      modifyD (SetId id) ;;
      readSimpleRoutingQueue fuel
  end.

Definition updateSimpleRoutingQueue (fuel : nat) : M R diag.Diagnostics :=
  id <- d_Id ;;
  log_Printf ("Updating simple queue " +:+ id) ;;
  dd <- getD ;;
  let name := GetString dd "name" in
  let callingPartyName := GetString dd "calling_party_name" in
  let enableTranscription := GetBool dd "enable_transcription" in
  let queueUpdate :=
    Queuerequest.mk (Some name) (Some callingPartyName) (Some enableTranscription) in
  updated <- call (EvUpdate id queueUpdate) (updateRoutingQueue proxy id queueUpdate) ;;
  let '(_, err) := updated in
  match err with
  | Some err => ret (diag.Errorf ("failed to update queue " +:+ name +:+ ": " +:+ err))
  | None => readSimpleRoutingQueue fuel
  end.

(** The callback [deleteSimpleRoutingQueue] hands to [WithRetries]. *)
Definition deleteSimpleRoutingQueue_check : M R (option RetryError) :=
  id <- d_Id ;;
  got <- call (EvGet id) (getRoutingQueue proxy id) ;;
  let '(_, respCode, err) := got in
  match err with
  | None =>
      ret (NonRetryableError ("error deleting routing queue " +:+ id +:+ ": " +:+ fmt_nil_s))
  | Some _ =>
      if IsStatus404ByInt respCode
      then log_Printf ("Deleted routing queue " +:+ id) ;; ret None
      else ret (RetryableError ("routing queue " +:+ id +:+ " still exists"))
  end.

Definition deleteSimpleRoutingQueue (fuel : nat) : M R diag.Diagnostics :=
  id <- d_Id ;;
  log_Printf ("Deleting simple queue " +:+ id) ;;
  err <- call (EvDelete id) (deleteRoutingQueue proxy id) ;;
  match err with
  | Some err => ret (diag.Errorf ("failed to delete queue " +:+ id +:+ ": " +:+ err))
  | None =>
      time_Sleep (5 * time.Second)%Z ;;
      WithRetries fuel (30 * time.Second)%Z deleteSimpleRoutingQueue_check
  end.

(** ** Vocabulary of the statements *)

(** The request [createSimpleRoutingQueue] builds from the resource data. *)
Definition queueCreateOf (dd : ResourceData) : Createqueuerequest.t :=
  Createqueuerequest.mk (Some (GetString dd "name"))
    (Some (GetString dd "calling_party_name"))
    (Some (GetBool dd "enable_transcription")).

(** The request [updateSimpleRoutingQueue] builds from the resource data. *)
Definition queueUpdateOf (dd : ResourceData) : Queuerequest.t :=
  Queuerequest.mk (Some (GetString dd "name"))
    (Some (GetString dd "calling_party_name"))
    (Some (GetBool dd "enable_transcription")).

(** The world after one get for the current identity, and the reply to it. *)
Definition gotten (w : World R) : World R :=
  called (EvGet (rdId (d w))) (getRoutingQueue proxy (rdId (d w))) w.

Definition getReply (w : World R) : option Queue.t * Z * option error :=
  replyOf (getRoutingQueue proxy (rdId (d w))) w.

(** [notFoundAttempts n start w] is the world after [n] gets when each of
    them came back with an error and a not-found status, and was over before
    the read ceiling counted from [start]; [None] otherwise. *)
Fixpoint notFoundAttempts (n : nat) (start : Z) (w : World R) : option (World R) :=
  match n with
  | O => Some w
  | S n' =>
      match getReply w with
      | (_, respCode, Some _) =>
          if IsStatus404ByInt respCode && (clock (gotten w) - start <? readCeiling)%Z
          then notFoundAttempts n' start (gotten w)
          else None
      | (_, _, None) => None
      end
  end.

End Lifecycle.

(** [reads w w']: going from [w] to [w'] kept the identity and added only log
    lines and gets for that identity to the trace. *)
Definition reads {R} (w w' : World R) : Prop :=
  rdId (d w') = rdId (d w) /\
  exists ext, trace w' = (trace w ++ ext)%list /\ forallb (readEvent (rdId (d w))) ext = true.


(** The attributes outside the three fields of the schema. *)
Definition foreign (m : gmap string value) : gmap string value :=
  delete "name" (delete "calling_party_name" (delete "enable_transcription" m)).

(** [keeps w w']: going from [w] to [w'] kept the identity and every
    attribute outside the three fields of the schema. *)
Definition keeps {R} (w w' : World R) : Prop :=
  rdId (d w') = rdId (d w) /\ foreign (rdAttrs (d w')) = foreign (rdAttrs (d w)).

(** A proxy none of whose gets and deletes takes negative time. *)
Definition prompt {R} (proxy : Proxy R) : Prop :=
  (forall id r, (0 <= took (fst (getRoutingQueue proxy id r)))%Z) /\
  (forall id r, (0 <= took (fst (deleteRoutingQueue proxy id r)))%Z).

(** ** A scripted proxy and concrete collaborators, for running the functions *)

(** A fake proxy: fixed replies to the three mutations, and a reply to the
    [n]-th get (counting from 0).  Its remote state is the number of gets
    answered so far. *)
Record Script := mkScript {
  onCreate : Reply (option Queue.t * option error);
  onUpdate : Reply (option Queue.t * option error);
  onDelete : Reply (option error);
  onGet : nat -> Reply (option Queue.t * Z * option error) }.

Definition scripted (sc : Script) : Proxy nat :=
  {| createRoutingQueue := fun _ n => (onCreate sc, n);
     getRoutingQueue := fun _ n => (onGet sc n, S n);
     updateRoutingQueue := fun _ _ n => (onUpdate sc, n);
     deleteRoutingQueue := fun _ n => (onDelete sc, n) |}.

(** The classifier by the HTTP code itself. *)
Definition isStatus404 (code : Z) : bool := (code =? 404)%Z.

(** A consistency checker that finds nothing to object to. *)
Definition consistent (original current : ResourceData) : option RetryError := None.

Definition millisecond : time.Duration := 1000000%Z.

(** A consistency checker that rejects whatever it is shown, for good. *)
Definition rejecting (original current : ResourceData) : option RetryError :=
  NonRetryableError "state mismatch".

#[local] Instance value_eq_dec : EqDecision value.
Proof. solve_decision. Defined.


(** A read ceiling to run the functions under. *)
Definition sampleCeiling : time.Duration := (2 * time.Second)%Z.

Definition supportQueue : Queue.t :=
  Queue.mk (Some "Q-1") (Some "Support") (Some "Acme") (Some true).

(** A payload without a name, its two optional fields present. *)
Definition namelessQueue : Queue.t :=
  Queue.mk (Some "Q-1") None (Some "Acme") (Some true).

(** A queue with its name only. *)
Definition bareQueue : Queue.t := Queue.mk (Some "Q-1") (Some "Support") None None.

(** Desired attributes, before the resource exists. *)
Definition desired : ResourceData :=
  {| rdId := EmptyString;
     rdAttrs := <["name" := VString "Support"]>
                (<["calling_party_name" := VString "Acme"]>
                 (<["enable_transcription" := VBool true]> ∅)) |}.

(** The same attributes for the existing queue [Q-1]. *)
Definition existing : ResourceData := SetId "Q-1" desired.

(** Local attributes that differ from what [supportQueue] reports. *)
Definition stale : ResourceData :=
  {| rdId := "Q-1";
     rdAttrs := <["name" := VString "Old"]>
                (<["calling_party_name" := VString "Nobody"]>
                 (<["enable_transcription" := VBool false]> ∅)) |}.

Definition start (rd : ResourceData) : World nat := mkWorld rd 0 0%Z [].

Definition ok {A} (a : A) : Reply A := mkReply a (200 * millisecond)%Z.

Definition found (q : Queue.t) : Reply (option Queue.t * Z * option error) :=
  ok (Some q, 200%Z, None).

Definition notFound : Reply (option Queue.t * Z * option error) :=
  ok (None, 404%Z, Some "404 Not Found").

Definition serverError : Reply (option Queue.t * Z * option error) :=
  mkReply (None, 500%Z, Some "500 Internal Server Error") (10 * time.Second)%Z.

(** Every call succeeds and every get finds [supportQueue]. *)
Definition healthy : Script :=
  {| onCreate := ok (Some supportQueue, None);
     onUpdate := ok (Some supportQueue, None);
     onDelete := ok None;
     onGet := fun _ => found supportQueue |}.

(** The queue becomes visible on the third get only. *)
Definition lagging : Script :=
  {| onCreate := ok (Some supportQueue, None);
     onUpdate := ok (Some supportQueue, None);
     onDelete := ok None;
     onGet := fun n => if (n <? 2)%nat then notFound else found supportQueue |}.



(** The delete is accepted, every later get fails with a server error. *)
Definition failing : Script :=
  {| onCreate := ok (Some supportQueue, None);
     onUpdate := ok (Some supportQueue, None);
     onDelete := ok None;
     onGet := fun _ => serverError |}.

(** The delete is accepted and the queue is gone at the second get. *)
Definition vanishing : Script :=
  {| onCreate := ok (Some supportQueue, None);
     onUpdate := ok (Some supportQueue, None);
     onDelete := ok None;
     onGet := fun n => if (n <? 1)%nat then serverError else notFound |}.

(** The queue is not found at first, and then comes back without a name. *)
Definition namelessLater : Script :=
  {| onCreate := ok (Some supportQueue, None);
     onUpdate := ok (Some supportQueue, None);
     onDelete := ok None;
     onGet := fun n => if (n <? 1)%nat then notFound else found namelessQueue |}.


(** Every get finds a queue without a name. *)
Definition nameless : Script :=
  {| onCreate := ok (Some supportQueue, None);
     onUpdate := ok (Some supportQueue, None);
     onDelete := ok None;
     onGet := fun _ => found namelessQueue |}.

(** ** Facts about traces and the polling loop *)

(** Entering [readSimpleRoutingQueue] up to the first attempt of the loop. *)
Ltac enter_read :=
  unfold readSimpleRoutingQueue, WithRetriesForRead, WithRetries, bind,
    d_Id, log_Printf, time_Now.

(** Closed statements about a run against a scripted proxy hold by running it. *)
Ltac by_running := vm_compute; repeat split.

Lemma countEv_app p (tr1 tr2 : list Event) :
  countEv p (tr1 ++ tr2) = countEv p tr1 + countEv p tr2.
Proof.
  induction tr1 as [|e tr1 IH]; simpl; [reflexivity|].
  rewrite IH. lia.
Qed.

Lemma countEv_none p q (tr : list Event) :
  (forall e, q e = true -> p e = false) ->
  forallb q tr = true -> countEv p tr = 0.
Proof.
  intros Hpq. induction tr as [|e tr IH]; simpl; [reflexivity|].
  intros [He Htr]%andb_prop. rewrite (Hpq e He). simpl. auto.
Qed.

Lemma readEvent_not_create id e : readEvent id e = true -> isCreate e = false.
Proof. destruct e; simpl; congruence. Qed.

Lemma readEvent_not_update id e : readEvent id e = true -> isUpdate e = false.
Proof. destruct e; simpl; congruence. Qed.

Section LifecycleFacts.

Context {R : Type}.
Variable proxy : Proxy R.
Variable IsStatus404ByInt : Z -> bool.
Variable CheckState : ResourceData -> ResourceData -> option RetryError.
Variable readCeiling : time.Duration.

Local Notation "'read_check'" := (readSimpleRoutingQueue_check proxy IsStatus404ByInt CheckState).
Local Notation "'delete_check'" := (deleteSimpleRoutingQueue_check proxy IsStatus404ByInt).
Local Notation "'read'" := (readSimpleRoutingQueue proxy IsStatus404ByInt CheckState readCeiling).
Local Notation "'create'" := (createSimpleRoutingQueue proxy IsStatus404ByInt CheckState readCeiling).
Local Notation "'update'" := (updateSimpleRoutingQueue proxy IsStatus404ByInt CheckState readCeiling).
Local Notation "'delete'" := (deleteSimpleRoutingQueue proxy IsStatus404ByInt).

Lemma reads_refl (w : World R) : reads w w.
Proof. split; [reflexivity|]. exists []. rewrite app_nil_r. auto. Qed.

Lemma reads_trans (w1 w2 w3 : World R) : reads w1 w2 -> reads w2 w3 -> reads w1 w3.
Proof.
  intros [Hid1 (e1 & Ht1 & Hf1)] [Hid2 (e2 & Ht2 & Hf2)].
  split; [congruence|].
  exists (e1 ++ e2). split.
  - rewrite Ht2, Ht1, app_assoc. reflexivity.
  - rewrite forallb_app, Hf1. rewrite Hid1 in Hf2. rewrite Hf2. reflexivity.
Qed.

Lemma reads_gotten w : reads w (gotten proxy w).
Proof.
  split; [reflexivity|]. exists [EvGet (rdId (d w))]. split; [reflexivity|].
  simpl. rewrite bool_decide_eq_true_2; reflexivity.
Qed.

Lemma reads_logged msg (w : World R) : reads w (logged msg w).
Proof. split; [reflexivity|]. exists [EvLog msg]. auto. Qed.

Lemma reads_same (w w' : World R) :
  rdId (d w') = rdId (d w) -> trace w' = trace w -> reads w w'.
Proof.
  intros Hid Htr. split; [exact Hid|]. exists []. rewrite app_nil_r. auto.
Qed.

(** The values of the queue are set without touching anything but the
    attribute store. *)
Lemma setQueueValues_reads q (w : World R) : reads w (final (setQueueValues q w)).
Proof.
  destruct q as [[qid [nm|] [cpn|] [et|]]|];
    cbv [setQueueValues bind deref ret panic d_Set SetNillableValue modifyD final
         Queue.Name Queue.CallingPartyName Queue.EnableTranscription];
    apply reads_same; reflexivity.
Qed.

Lemma read_check_reads w : reads w (final (read_check w)).
Proof.
  unfold readSimpleRoutingQueue_check, bind, d_Id, call, getD. simpl.
  fold (gotten proxy w).
  destruct (replyOf _ w) as [[q code] [err|]].
  - destruct (IsStatus404ByInt code); apply reads_gotten.
  - pose proof (setQueueValues_reads q (gotten proxy w)) as Hs.
    destruct (setQueueValues q (gotten proxy w)) as [[] w'| w'| w']; simpl in *;
      exact (reads_trans _ _ _ (reads_gotten w) Hs).
Qed.

Lemma delete_check_reads w : reads w (final (delete_check w)).
Proof.
  unfold deleteSimpleRoutingQueue_check, bind, d_Id, call. simpl.
  fold (gotten proxy w).
  destruct (replyOf _ w) as [[q code] [err|]]; [|apply reads_gotten].
  destruct (IsStatus404ByInt code); simpl; [|apply reads_gotten].
  exact (reads_trans _ _ _ (reads_gotten w) (reads_logged _ _)).
Qed.

(** The loop adds to the trace what its check adds, nothing else. *)
Lemma pollUntil_reads (check : M R (option RetryError)) start ceiling :
  (forall w, reads w (final (check w))) ->
  forall fuel w, reads w (final (pollUntil fuel start ceiling check w)).
Proof.
  intros Hc fuel. induction fuel as [|fuel IH]; intros w; simpl.
  - apply reads_refl.
  - unfold bind. specialize (Hc w).
    destruct (check w) as [[e|] w'| w'| w']; simpl in *; try exact Hc.
    destruct (Retryable e); simpl; [|exact Hc].
    destruct (ceiling <=? clock w' - start)%Z; simpl; [exact Hc|].
    exact (reads_trans _ _ _ Hc (IH w')).
Qed.

Lemma read_reads fuel w : reads w (final (read fuel w)).
Proof.
  unfold readSimpleRoutingQueue, WithRetriesForRead, WithRetries, bind.
  simpl.
  refine (reads_trans _ _ _ (reads_logged _ w) _).
  apply pollUntil_reads. apply read_check_reads.
Qed.

(** ** The two callbacks *)

(** What one run of the read callback does, by the reply of the proxy. *)
Lemma read_check_outcome (w : World R) :
  read_check w =
  match getReply proxy w with
  | (_, respCode, Some err) =>
      Returned
        (Some {| Err := "failed to read queue " +:+ rdId (d w) +:+ ": " +:+ err;
                 Retryable := IsStatus404ByInt respCode |})
        (gotten proxy w)
  | (currentQueue, _, None) =>
      match setQueueValues currentQueue (gotten proxy w) with
      | Returned _ w' => Returned (CheckState (d w) (d w')) w'
      | Panicked w' => Panicked w'
      | OutOfFuel w' => OutOfFuel w'
      end
  end.
Proof.
  unfold readSimpleRoutingQueue_check, bind, d_Id, call, getD, getReply.
  fold (gotten proxy w).
  destruct (replyOf (getRoutingQueue proxy (rdId (d w))) w) as [[q code] [err|]].
  - unfold RetryableError, NonRetryableError, ret.
    destruct (IsStatus404ByInt code); reflexivity.
  - destruct (setQueueValues q (gotten proxy w)); reflexivity.
Qed.

(** What one run of the delete callback does, by the reply of the proxy. *)
Lemma delete_check_outcome (w : World R) :
  delete_check w =
  match getReply proxy w with
  | (_, _, None) =>
      Returned
        (NonRetryableError
           ("error deleting routing queue " +:+ rdId (d w) +:+ ": " +:+ fmt_nil_s))
        (gotten proxy w)
  | (_, respCode, Some _) =>
      if IsStatus404ByInt respCode
      then Returned None (logged ("Deleted routing queue " +:+ rdId (d w)) (gotten proxy w))
      else Returned (RetryableError ("routing queue " +:+ rdId (d w) +:+ " still exists"))
             (gotten proxy w)
  end.
Proof.
  unfold deleteSimpleRoutingQueue_check, bind, d_Id, call, getReply.
  fold (gotten proxy w).
  destruct (replyOf (getRoutingQueue proxy (rdId (d w))) w) as [[q code] [err|]];
    [|reflexivity].
  destruct (IsStatus404ByInt code); reflexivity.
Qed.

(** Not-found attempts below the ceiling are all retried: the loop arrives at
    the world after them with the fuel it has left. *)
Lemma pollUntil_skips_not_found n :
  forall fuel start (w wn : World R),
    notFoundAttempts proxy IsStatus404ByInt readCeiling n start w = Some wn ->
    pollUntil (n + fuel) start readCeiling read_check w =
    pollUntil fuel start readCeiling read_check wn.
Proof.
  induction n as [|n IH]; intros fuel start w wn Hn; cbn [notFoundAttempts] in Hn.
  - injection Hn as <-. reflexivity.
  - change (S n + fuel) with (S (n + fuel)). cbn [pollUntil]. unfold bind at 1.
    rewrite read_check_outcome.
    destruct (getReply proxy w) as [[q code] [err|]]; [|discriminate].
    destruct (IsStatus404ByInt code); cbn [andb] in Hn; [|discriminate].
    destruct (clock (gotten proxy w) - start <? readCeiling)%Z eqn:Hlt; [|discriminate].
    cbn [Retryable]. unfold bind, time_Now.
    apply Z.ltb_lt in Hlt.
    destruct (readCeiling <=? clock (gotten proxy w) - start)%Z eqn:Hle;
      [apply Z.leb_le in Hle; lia|].
    apply IH. exact Hn.
Qed.


(** ** Read *)

(** C4. In the read callback a client error is retryable exactly when its
    status code is classified as not-found, and terminal otherwise.  Hence a
    read whose first [n] gets all come back not-found before the ceiling, and
    whose next attempt succeeds, returns success. *)
Theorem read_retries_exactly_not_found :
  (forall (w : World R) q respCode err,
      getReply proxy w = (q, respCode, Some err) ->
      exists e,
        read_check w = Returned (Some e) (gotten proxy w) /\
        Retryable e = IsStatus404ByInt respCode) /\
  (forall n fuel (w wn w' : World R),
      let w0 := logged ("Reading simple queue " +:+ rdId (d w)) w in
      notFoundAttempts proxy IsStatus404ByInt readCeiling n (clock w0) w0 = Some wn ->
      read_check wn = Returned None w' ->
      n < fuel ->
      read fuel w = Returned [] w').
Proof.
  split.
  - intros w q code err Hrep. rewrite read_check_outcome, Hrep.
    eexists. split; reflexivity.
  - intros n fuel w wn w' w0 Hn Hok Hfuel.
    enter_read.
    fold w0.
    replace fuel with (n + S (fuel - S n)) by lia.
    rewrite (pollUntil_skips_not_found n _ _ _ _ Hn).
    cbn [pollUntil]. unfold bind. rewrite Hok. reflexivity.
Qed.

(** C10. Read relies on the name being present in every payload a successful
    get returns.  In any attempt, first or later, a get that succeeds with a
    queue whose name is nil makes the callback panic on the dereference, and
    the poll, hence read, panics with it; whereas a queue with a name and
    neither optional field goes through, the two optional fields being
    nil-guarded. *)
Theorem read_panics_on_nil_name :
  (forall (w : World R) q respCode,
      getReply proxy w = (Some q, respCode, None) ->
      Queue.Name q = None ->
      read_check w = Panicked (gotten proxy w) /\
      forall fuel start ceiling,
        pollUntil (S fuel) start ceiling read_check w = Panicked (gotten proxy w)) /\
  (forall n fuel (w wn : World R) q respCode,
      let w0 := logged ("Reading simple queue " +:+ rdId (d w)) w in
      notFoundAttempts proxy IsStatus404ByInt readCeiling n (clock w0) w0 = Some wn ->
      getReply proxy wn = (Some q, respCode, None) ->
      Queue.Name q = None ->
      read (n + S fuel) w = Panicked (gotten proxy wn)) /\
  (forall (w : World R) qid name,
      setQueueValues (Some (Queue.mk qid (Some name) None None)) w =
      Returned tt (withD (Set_ "name" (VString name) (d w)) w)).
Proof.
  assert (Hcheck : forall (w : World R) q respCode,
             getReply proxy w = (Some q, respCode, None) ->
             Queue.Name q = None ->
             read_check w = Panicked (gotten proxy w)).
  { intros w q code Hrep Hname. rewrite read_check_outcome, Hrep.
    unfold setQueueValues, bind, deref, ret. rewrite Hname. reflexivity. }
  assert (Hpoll : forall (w : World R) q respCode,
             getReply proxy w = (Some q, respCode, None) ->
             Queue.Name q = None ->
             forall fuel start ceiling,
               pollUntil (S fuel) start ceiling read_check w = Panicked (gotten proxy w)).
  { intros w q code Hrep Hname fuel start ceiling.
    cbn [pollUntil]. unfold bind. rewrite (Hcheck w q code Hrep Hname). reflexivity. }
  split; [|split].
  - intros w q code Hrep Hname. split; [exact (Hcheck w q code Hrep Hname)|].
    exact (Hpoll w q code Hrep Hname).
  - intros n fuel w wn q code w0 Hn Hrep Hname.
    enter_read. fold w0.
    rewrite (pollUntil_skips_not_found n _ _ _ _ Hn).
    exact (Hpoll wn q code Hrep Hname fuel _ _).
  - intros w qid name. reflexivity.
Qed.

(** ** Reconciliation *)

(** C6, as the code has it.  When the observed payload carries its name,
    reconciliation returns normally and changes the attribute store only:
    every field present in the payload overwrites the local value with the
    observed one, and every field absent from it (which can only be one of
    the two optional fields) leaves the local value as it was. *)
Theorem reconcile_copies_present_fields (w : World R) (q : Queue.t) (name : string) :
  Queue.Name q = Some name ->
  exists rd',
    setQueueValues (Some q) w = Returned tt (withD rd' w) /\
    rdId rd' = rdId (d w) /\
    forall key,
      rdAttrs rd' !! key =
      match observed q key with
      | Some v => Some v
      | None => rdAttrs (d w) !! key
      end.
Proof.
  intros Hname. destruct q as [qid nm [cpn|] [et|]]; simpl in Hname; subst nm;
    eexists; (split; [reflexivity|]); (split; [reflexivity|]);
    intros key; unfold observed; cbn [Queue.Name Queue.CallingPartyName
      Queue.EnableTranscription rdAttrs Set_ withD d fmap option_fmap option_map];
    repeat case_decide; subst; simplify_map_eq; reflexivity.
Qed.

(** C9. Reconciliation is idempotent: for every local state and every
    observed payload, setting the values of the payload twice in a row ends
    exactly as setting them once (be it a normal return or the panic on a
    missing name). *)
Theorem reconcile_idempotent (w : World R) (currentQueue : option Queue.t) :
  (setQueueValues currentQueue ;; setQueueValues currentQueue) w =
  setQueueValues currentQueue w.
Proof.
  destruct currentQueue as [[qid [nm|] [cpn|] [et|]]|]; try reflexivity;
    cbv [setQueueValues bind deref ret panic d_Set SetNillableValue modifyD withD
         Queue.Name Queue.CallingPartyName Queue.EnableTranscription
         d remote clock trace Set_ rdId rdAttrs];
    do 3 f_equal; apply map_eq; intros key;
    rewrite !lookup_insert; repeat case_decide; congruence.
Qed.

(** ** Create and update *)

(** What create does, by the reply of the proxy to the one create call. *)
Lemma create_outcome fuel (w : World R) :
  let name := GetString (d w) "name" in
  let queueCreate := queueCreateOf (d w) in
  let w1 := called (EvCreate queueCreate) (createRoutingQueue proxy queueCreate)
              (logged ("Creating simple queue " +:+ name) w) in
  create fuel w =
  match replyOf (createRoutingQueue proxy queueCreate) w with
  | (_, Some err) =>
      Returned (diag.Errorf ("failed to create queue " +:+ name +:+ ": " +:+ err)) w1
  | (Some q, None) =>
      match Queue.Id q with
      | Some id => read fuel (withD (SetId id (d w)) w1)
      | None => Panicked w1
      end
  | (None, None) => Panicked w1
  end.
Proof.
  intros name queueCreate w1.
  unfold createSimpleRoutingQueue, bind, getD, log_Printf, call, deref, ret, panic, modifyD.
  unfold w1, name, queueCreate, queueCreateOf, replyOf, called, logged, emitted.
  cbn [remote d clock trace].
  destruct (createRoutingQueue proxy _ (remote w)) as [[[[q|] [err|]] tk] r'];
    cbn [fst snd answer took]; try reflexivity.
  destruct (Queue.Id q) as [id|]; reflexivity.
Qed.

(** What update does, by the reply of the proxy to the one update call. *)
Lemma update_outcome fuel (w : World R) :
  let id := rdId (d w) in
  let name := GetString (d w) "name" in
  let queueUpdate := queueUpdateOf (d w) in
  let w1 := called (EvUpdate id queueUpdate) (updateRoutingQueue proxy id queueUpdate)
              (logged ("Updating simple queue " +:+ id) w) in
  update fuel w =
  match snd (replyOf (updateRoutingQueue proxy id queueUpdate) w) with
  | Some err =>
      Returned (diag.Errorf ("failed to update queue " +:+ name +:+ ": " +:+ err)) w1
  | None => read fuel w1
  end.
Proof.
  intros id name queueUpdate w1.
  unfold updateSimpleRoutingQueue, bind, d_Id, getD, log_Printf, call, ret.
  unfold w1, name, queueUpdate, id, queueUpdateOf, replyOf, called, logged, emitted.
  cbn [remote d clock trace].
  destruct (updateRoutingQueue proxy _ _ (remote w)) as [[[q [err|]] tk] r'];
    reflexivity.
Qed.

(** C3. For every desired attribute set, create calls the client's create
    exactly once.  If the client returns an error, create returns the
    terminal failure at once, the create call being the last thing it did.
    Otherwise the identity of the client's response becomes the identity of
    the resource data, read is run on that world, every get of that read is
    for that identity, and the result of read is the result of create.  (A
    nil response or a nil identity in it is dereferenced: a panic.) *)
Theorem create_calls_once_then_reads fuel (w : World R) :
  let name := GetString (d w) "name" in
  let queueCreate := queueCreateOf (d w) in
  let w1 := called (EvCreate queueCreate) (createRoutingQueue proxy queueCreate)
              (logged ("Creating simple queue " +:+ name) w) in
  countEv isCreate (trace (final (create fuel w))) = S (countEv isCreate (trace w)) /\
  match replyOf (createRoutingQueue proxy queueCreate) w with
  | (_, Some err) =>
      create fuel w =
      Returned (diag.Errorf ("failed to create queue " +:+ name +:+ ": " +:+ err)) w1
  | (Some q, None) =>
      match Queue.Id q with
      | Some id =>
          let w2 := withD (SetId id (d w)) w1 in
          create fuel w = read fuel w2 /\
          rdId (d w2) = id /\
          reads w2 (final (create fuel w))
      | None => create fuel w = Panicked w1
      end
  | (None, None) => create fuel w = Panicked w1
  end.
Proof.
  intros name queueCreate w1.
  assert (Hcount1 : countEv isCreate (trace w1) = S (countEv isCreate (trace w))).
  { unfold w1, called, logged, emitted. cbn [trace].
    rewrite !countEv_app. simpl. lia. }
  pose proof (create_outcome fuel w) as Hstep. cbv zeta in Hstep.
  fold name queueCreate w1 in Hstep.
  rewrite Hstep.
  destruct (replyOf (createRoutingQueue proxy queueCreate) w) as [[q|] [err|]];
    try (split; [exact Hcount1 | reflexivity]).
  destruct (Queue.Id q) as [id|]; [|split; [exact Hcount1 | reflexivity]].
  set (w2 := withD (SetId id (d w)) w1).
  pose proof (read_reads fuel w2) as Hr.
  split; [|split; [reflexivity | split; [reflexivity | exact Hr]]].
  destruct Hr as [_ (ext & Htr & Hext)].
  rewrite Htr, countEv_app.
  rewrite (countEv_none isCreate _ ext (readEvent_not_create _) Hext).
  change (trace w2) with (trace w1). lia.
Qed.

(** C5. For every identity and desired attribute set, update calls the
    client's update exactly once.  If the client returns an error, update
    returns the terminal failure at once, the update call being the last
    thing it did.  Otherwise update runs read on the world the call left and
    returns what read returns. *)
Theorem update_calls_once_then_reads fuel (w : World R) :
  let id := rdId (d w) in
  let name := GetString (d w) "name" in
  let queueUpdate := queueUpdateOf (d w) in
  let w1 := called (EvUpdate id queueUpdate) (updateRoutingQueue proxy id queueUpdate)
              (logged ("Updating simple queue " +:+ id) w) in
  countEv isUpdate (trace (final (update fuel w))) = S (countEv isUpdate (trace w)) /\
  match snd (replyOf (updateRoutingQueue proxy id queueUpdate) w) with
  | Some err =>
      update fuel w =
      Returned (diag.Errorf ("failed to update queue " +:+ name +:+ ": " +:+ err)) w1
  | None =>
      update fuel w = read fuel w1 /\ reads w1 (final (update fuel w))
  end.
Proof.
  intros id name queueUpdate w1.
  assert (Hcount1 : countEv isUpdate (trace w1) = S (countEv isUpdate (trace w))).
  { unfold w1, called, logged, emitted. cbn [trace].
    rewrite !countEv_app. simpl. lia. }
  pose proof (update_outcome fuel w) as Hstep. cbv zeta in Hstep.
  fold id name queueUpdate w1 in Hstep.
  rewrite Hstep.
  destruct (snd (replyOf (updateRoutingQueue proxy id queueUpdate) w)) as [err|];
    [split; [exact Hcount1 | reflexivity]|].
  pose proof (read_reads fuel w1) as Hr.
  split; [|split; [reflexivity | exact Hr]].
  destruct Hr as [_ (ext & Htr & Hext)].
  rewrite Htr, countEv_app.
  rewrite (countEv_none isUpdate _ ext (readEvent_not_update _) Hext).
  lia.
Qed.

(** ** Delete *)

(** What delete does around the client's delete: a refusal is returned at
    once; after an accepted delete it sleeps five seconds and only then
    polls, under a ceiling of thirty seconds. *)
Lemma delete_waits_then_polls fuel (w : World R) :
  let id := rdId (d w) in
  let w1 := called (EvDelete id) (deleteRoutingQueue proxy id)
              (logged ("Deleting simple queue " +:+ id) w) in
  delete fuel w =
  match replyOf (deleteRoutingQueue proxy id) w with
  | Some err =>
      Returned (diag.Errorf ("failed to delete queue " +:+ id +:+ ": " +:+ err)) w1
  | None =>
      WithRetries fuel (30 * time.Second)%Z delete_check (slept (5 * time.Second)%Z w1)
  end.
Proof.
  intros id w1.
  unfold deleteSimpleRoutingQueue, bind, d_Id, log_Printf, call, time_Sleep, ret.
  unfold w1, id, replyOf, called, logged, emitted.
  cbn [remote d clock trace].
  destruct (deleteRoutingQueue proxy _ (remote w)) as [[[err|] tk] r']; reflexivity.
Qed.

Lemma slept_clock dur (w : World R) :
  (0 <= dur)%Z -> clock (slept dur w) = (clock w + dur)%Z.
Proof. intros H. unfold slept. cbn [clock]. lia. Qed.

(** ** Failures *)




End LifecycleFacts.

(** ** Runs against the scripted proxy *)

(** Create on a proxy that shows the new queue at the third get: one create
    call, three gets for the new identity, success. *)
Example create_on_lagging_proxy :
  let run := createSimpleRoutingQueue (scripted lagging) isStatus404 consistent
               sampleCeiling 5 (start desired) in
  run = Returned [] (final run) /\
  rdId (d (final run)) = "Q-1" /\
  trace (final run) =
    [EvLog "Creating simple queue Support";
     EvCreate (Createqueuerequest.mk (Some "Support") (Some "Acme") (Some true));
     EvLog "Reading simple queue Q-1"; EvGet "Q-1"; EvGet "Q-1"; EvGet "Q-1"].
Proof. by_running. Qed.

(** Read overwrites stale local values with the observed ones. *)
Example read_overwrites_stale_values :
  let run := readSimpleRoutingQueue (scripted healthy) isStatus404 consistent
               sampleCeiling 5 (start stale) in
  run = Returned [] (final run) /\
  rdAttrs (d (final run)) = rdAttrs existing.
Proof. by_running. Qed.

(** A read that is answered not-found beyond the ceiling ends in a timeout. *)
Example read_times_out :
  let always404 := mkScript (ok (None, None)) (ok (None, None)) (ok None) (fun _ => notFound) in
  readSimpleRoutingQueue (scripted always404) isStatus404 consistent
    (500 * millisecond)%Z 5 (start existing) =
  Returned (diag.Errorf "timeout: failed to read queue Q-1: 404 Not Found")
    (mkWorld existing 3 (600 * millisecond)%Z
       [EvLog "Reading simple queue Q-1"; EvGet "Q-1"; EvGet "Q-1"; EvGet "Q-1"]).
Proof. vm_compute. reflexivity. Qed.

Lemma read_retries_exactly_not_found_witness :
  let w0 := logged "Reading simple queue Q-1" (start existing) in
  let wn := gotten (scripted lagging) (gotten (scripted lagging) w0) in
  let w' := final (readSimpleRoutingQueue_check (scripted lagging) isStatus404 consistent wn) in
  (exists e,
     readSimpleRoutingQueue_check (scripted lagging) isStatus404 consistent w0 =
       Returned (Some e) (gotten (scripted lagging) w0) /\
     Retryable e = isStatus404 404) /\
  readSimpleRoutingQueue (scripted lagging) isStatus404 consistent sampleCeiling 3
    (start existing) = Returned [] w'.
Proof.
  intros w0 wn w'.
  pose proof (read_retries_exactly_not_found (scripted lagging) isStatus404 consistent
                sampleCeiling) as [Hclass Hrun].
  split.
  - apply (Hclass w0 None 404%Z "404 Not Found"). reflexivity.
  - apply (Hrun 2 3 (start existing) wn w').
    + vm_compute. reflexivity.
    + vm_compute. reflexivity.
    + lia.
Defined.

Lemma read_panics_on_nil_name_witness :
  let w0 := logged "Reading simple queue Q-1" (start existing) in
  let wn := gotten (scripted namelessLater) w0 in
  readSimpleRoutingQueue_check (scripted namelessLater) isStatus404 consistent wn =
    Panicked (gotten (scripted namelessLater) wn) /\
  readSimpleRoutingQueue (scripted namelessLater) isStatus404 consistent sampleCeiling 2
    (start existing) =
  Panicked (mkWorld existing 2 (400 * millisecond)%Z
              [EvLog "Reading simple queue Q-1"; EvGet "Q-1"; EvGet "Q-1"]).
Proof.
  intros w0 wn.
  pose proof (read_panics_on_nil_name (scripted namelessLater) isStatus404 consistent
                sampleCeiling) as (Hattempt & Hread & _).
  split.
  - apply (Hattempt wn namelessQueue 200%Z); reflexivity.
  - apply (Hread 1 0 (start existing) wn namelessQueue 200%Z); reflexivity.
Defined.

(** C6 as stated fails on a payload without a name: reconciliation panics
    on the name, and the calling party name, which the payload does carry,
    never overwrites the local value. *)
Lemma reconcile_absent_name_panics :
  observed namelessQueue "name" = None /\
  observed namelessQueue "calling_party_name" = Some (VString "Acme") /\
  setQueueValues (Some namelessQueue) (start stale) = Panicked (start stale) /\
  rdAttrs (d (final (setQueueValues (Some namelessQueue) (start stale))))
    !! "calling_party_name" = Some (VString "Nobody") /\
  readSimpleRoutingQueue (scripted nameless) isStatus404 consistent sampleCeiling 5
    (start stale) =
  Panicked (mkWorld stale 1 (200 * millisecond)%Z
              [EvLog "Reading simple queue Q-1"; EvGet "Q-1"]).
Proof. by_running. Qed.

Lemma reconcile_copies_present_fields_witness :
  exists rd',
    setQueueValues (Some bareQueue) (start stale) = Returned tt (withD rd' (start stale)) /\
    rdId rd' = "Q-1" /\
    forall key,
      rdAttrs rd' !! key =
      match observed bareQueue key with
      | Some v => Some v
      | None => rdAttrs stale !! key
      end.
Proof.
  apply (reconcile_copies_present_fields (start stale) bareQueue "Support").
  reflexivity.
Defined.



(** ** Delete confirmation against the scripted proxy *)

(** C1, on the code.  The client accepts the delete and the first
    confirmation get finds the queue still there (no error).  The callback
    classifies that as non-retryable, so delete returns a failure after this
    single get, well before the ceiling of thirty seconds, although the
    queue might yet disappear. *)
Theorem delete_fails_at_first_sight_of_queue :
  let w1 := slept (5 * time.Second)%Z
              (called (EvDelete "Q-1") (deleteRoutingQueue (scripted healthy) "Q-1")
                 (logged "Deleting simple queue Q-1" (start existing))) in
  let run := deleteSimpleRoutingQueue (scripted healthy) isStatus404 5 (start existing) in
  getReply (scripted healthy) w1 = (Some supportQueue, 200%Z, None) /\
  deleteSimpleRoutingQueue_check (scripted healthy) isStatus404 w1 =
    Returned (NonRetryableError "error deleting routing queue Q-1: %!s(<nil>)")
      (gotten (scripted healthy) w1) /\
  run = Returned (diag.Errorf "error deleting routing queue Q-1: %!s(<nil>)") (final run) /\
  countEv isGet (trace (final run)) = 1 /\
  (clock (final run) - clock w1 < 30 * time.Second)%Z.
Proof. by_running. Qed.

(** C2, on the code.  The client accepts the delete and the confirmation
    gets fail with a status that is not not-found.  The callback classifies
    that as retryable under the text "still exists": the poll goes on until
    the ceiling, and a later not-found even turns the delete into a success. *)
Theorem delete_retries_transport_failures :
  let w1 := slept (5 * time.Second)%Z
              (called (EvDelete "Q-1") (deleteRoutingQueue (scripted failing) "Q-1")
                 (logged "Deleting simple queue Q-1" (start existing))) in
  let run := deleteSimpleRoutingQueue (scripted failing) isStatus404 5 (start existing) in
  let run' := deleteSimpleRoutingQueue (scripted vanishing) isStatus404 5 (start existing) in
  getReply (scripted failing) w1 = (None, 500%Z, Some "500 Internal Server Error") /\
  isStatus404 500 = false /\
  deleteSimpleRoutingQueue_check (scripted failing) isStatus404 w1 =
    Returned (RetryableError "routing queue Q-1 still exists")
      (gotten (scripted failing) w1) /\
  run = Returned (diag.Errorf "timeout: routing queue Q-1 still exists") (final run) /\
  countEv isGet (trace (final run)) = 3 /\
  run' = Returned [] (final run') /\
  countEv isGet (trace (final run')) = 2.
Proof. by_running. Qed.

(** ** Further properties of the lifecycle functions *)

Section LifecycleInvariants.

Context {R : Type}.
Variable proxy : Proxy R.
Variable IsStatus404ByInt : Z -> bool.
Variable CheckState : ResourceData -> ResourceData -> option RetryError.
Variable readCeiling : time.Duration.

Local Notation "'read_check'" := (readSimpleRoutingQueue_check proxy IsStatus404ByInt CheckState).
Local Notation "'delete_check'" := (deleteSimpleRoutingQueue_check proxy IsStatus404ByInt).
Local Notation "'read'" := (readSimpleRoutingQueue proxy IsStatus404ByInt CheckState readCeiling).
Local Notation "'update'" := (updateSimpleRoutingQueue proxy IsStatus404ByInt CheckState readCeiling).
Local Notation "'delete'" := (deleteSimpleRoutingQueue proxy IsStatus404ByInt).

(** *** The loop keeps what its callback keeps *)

Section Loop.

Variable Rel : World R -> World R -> Prop.
Hypothesis Rel_refl : forall w, Rel w w.
Hypothesis Rel_trans : forall w1 w2 w3, Rel w1 w2 -> Rel w2 w3 -> Rel w1 w3.
Variable check : M R (option RetryError).
Hypothesis check_Rel : forall w, Rel w (final (check w)).

Lemma pollUntil_preserves start ceiling fuel :
  forall w, Rel w (final (pollUntil fuel start ceiling check w)).
Proof.
  induction fuel as [|fuel IH]; intros w; cbn [pollUntil].
  - apply Rel_refl.
  - unfold bind. pose proof (check_Rel w) as Hc.
    destruct (check w) as [[e|] w'| w'| w']; cbn [final] in *; try exact Hc.
    destruct (Retryable e); [|exact Hc].
    unfold time_Now.
    destruct (ceiling <=? clock w' - start)%Z; [exact Hc|].
    exact (Rel_trans _ _ _ Hc (IH w')).
Qed.

(** The loop reports success only from an attempt that reported success. *)
Lemma pollUntil_success start ceiling fuel :
  forall w w',
    pollUntil fuel start ceiling check w = Returned [] w' ->
    exists w0, Rel w w0 /\ check w0 = Returned None w'.
Proof.
  induction fuel as [|fuel IH]; intros w w' Hrun; cbn [pollUntil] in Hrun.
  - discriminate.
  - unfold bind in Hrun. pose proof (check_Rel w) as Hc.
    destruct (check w) as [[e|] w1| w1| w1] eqn:Hcheck; cbn [final] in Hc;
      try discriminate.
    + destruct (Retryable e).
      * unfold time_Now in Hrun.
        destruct (ceiling <=? clock w1 - start)%Z; [discriminate|].
        destruct (IH _ _ Hrun) as (w0 & Hrel & Hw0).
        exists w0. split; [exact (Rel_trans _ _ _ Hc Hrel) | exact Hw0].
      * discriminate.
    + injection Hrun as <-. exists w. split; [apply Rel_refl | exact Hcheck].
Qed.

End Loop.

(** *** What the functions keep *)

Lemma keeps_refl (w : World R) : keeps w w.
Proof. split; reflexivity. Qed.

Lemma keeps_trans (w1 w2 w3 : World R) : keeps w1 w2 -> keeps w2 w3 -> keeps w1 w3.
Proof. intros [Hi1 Hf1] [Hi2 Hf2]. split; congruence. Qed.

Lemma foreign_insert key v (m : gmap string value) :
  key = "name" \/ key = "calling_party_name" \/ key = "enable_transcription" ->
  foreign (<[key := v]> m) = foreign m.
Proof.
  intros Hkey. unfold foreign. apply map_eq. intros k.
  rewrite !lookup_delete, lookup_insert.
  repeat case_decide; try reflexivity.
  destruct Hkey as [-> | [-> | ->]]; congruence.
Qed.

Lemma setQueueValues_keeps q (w : World R) : keeps w (final (setQueueValues q w)).
Proof.
  destruct q as [[qid [nm|] [cpn|] [et|]]|];
    cbv [setQueueValues bind deref ret panic d_Set SetNillableValue modifyD final
         Queue.Name Queue.CallingPartyName Queue.EnableTranscription];
    (split; [reflexivity|]);
    cbn [withD d Set_ rdAttrs];
    rewrite ?foreign_insert by auto; reflexivity.
Qed.

Lemma read_check_keeps w : keeps w (final (read_check w)).
Proof.
  rewrite read_check_outcome.
  destruct (getReply proxy w) as [[q code] [err|]]; [split; reflexivity|].
  pose proof (setQueueValues_keeps q (gotten proxy w)) as Hs.
  destruct (setQueueValues q (gotten proxy w)); exact Hs.
Qed.

Lemma delete_check_keeps_d w : d (final (delete_check w)) = d w.
Proof.
  rewrite delete_check_outcome.
  destruct (getReply proxy w) as [[q code] [err|]]; [|reflexivity].
  destruct (IsStatus404ByInt code); reflexivity.
Qed.

(** X1. Read and update never change the identity of the resource data, nor
    any attribute other than [name], [calling_party_name] and
    [enable_transcription], however they end. *)
Theorem read_and_update_keep_the_rest fuel (w : World R) :
  keeps w (final (read fuel w)) /\ keeps w (final (update fuel w)).
Proof.
  assert (Hread : forall w0, keeps w0 (final (read fuel w0))).
  { intros w0. enter_read.
    exact (pollUntil_preserves keeps keeps_refl keeps_trans _ read_check_keeps
             _ _ fuel (logged _ w0)). }
  split; [apply Hread|].
  rewrite update_outcome.
  destruct (snd (replyOf _ w)); [split; reflexivity|].
  exact (Hread _).
Qed.

(** X2. Delete never writes to the resource data, however it ends: the
    attributes stay, and so does the identity, also after the queue is
    confirmed gone. *)
Theorem delete_keeps_resource_data fuel (w : World R) :
  d (final (delete fuel w)) = d w.
Proof.
  rewrite delete_waits_then_polls.
  destruct (replyOf _ w); [reflexivity|].
  unfold WithRetries, bind, time_Now.
  exact (pollUntil_preserves (fun w1 w2 => d w2 = d w1)
           (fun _ => eq_refl) (fun _ _ _ H1 H2 => eq_trans H2 H1)
           _ delete_check_keeps_d _ _ fuel _).
Qed.

(** X3. The trace of delete.  A refused delete is the last thing delete does:
    no sleep, no get.  After an accepted delete there is exactly one sleep, of
    five seconds, right after the delete call, and whatever follows is gets
    for the same identity and log lines. *)
Theorem delete_trace fuel (w : World R) :
  let id := rdId (d w) in
  match replyOf (deleteRoutingQueue proxy id) w with
  | Some _ =>
      trace (final (delete fuel w)) =
      trace w ++ [EvLog ("Deleting simple queue " +:+ id); EvDelete id]
  | None =>
      exists ext,
        trace (final (delete fuel w)) =
        trace w ++ [EvLog ("Deleting simple queue " +:+ id); EvDelete id;
                    EvSleep (5 * time.Second)%Z] ++ ext /\
        forallb (readEvent id) ext = true
  end.
Proof.
  intros id. rewrite delete_waits_then_polls. fold id.
  destruct (replyOf (deleteRoutingQueue proxy id) w).
  - cbn [final called logged emitted trace]. rewrite <- app_assoc. reflexivity.
  - unfold WithRetries, bind, time_Now.
    set (w1 := slept _ _).
    destruct (pollUntil_reads delete_check (clock w1) (30 * time.Second)%Z
                (delete_check_reads proxy IsStatus404ByInt) fuel w1)
      as [_ (ext & Htr & Hext)].
    exists ext. split; [|exact Hext].
    rewrite Htr. unfold w1. cbn [slept called logged emitted trace].
    rewrite <- !app_assoc. reflexivity.
Qed.

(** *** Time *)

Lemma delete_check_clock w :
  prompt proxy -> (clock w <= clock (final (delete_check w)))%Z.
Proof.
  intros [Hget _]. rewrite delete_check_outcome.
  pose proof (Hget (rdId (d w)) (remote w)) as Htook.
  assert (Hgot : (clock w <= clock (gotten proxy w))%Z).
  { unfold gotten, called. cbn [clock]. lia. }
  destruct (getReply proxy w) as [[q code] [err|]]; [|exact Hgot].
  destruct (IsStatus404ByInt code); exact Hgot.
Qed.

(** X4. When no call of the proxy takes negative time, a delete the client
    accepted never returns before five seconds have passed. *)
Theorem delete_takes_the_grace_period fuel (w : World R) :
  prompt proxy ->
  replyOf (deleteRoutingQueue proxy (rdId (d w))) w = None ->
  (clock w + 5 * time.Second <= clock (final (delete fuel w)))%Z.
Proof.
  intros Hprompt Hacc. rewrite delete_waits_then_polls, Hacc.
  unfold WithRetries, bind, time_Now.
  set (w1 := slept _ _).
  pose proof (pollUntil_preserves (fun a b => (clock a <= clock b)%Z)
                (fun a => Z.le_refl _) (fun a b c => Z.le_trans _ _ _)
                delete_check (fun a => delete_check_clock a Hprompt)
                (clock w1) (30 * time.Second)%Z fuel w1) as Hpoll.
  cbn beta in Hpoll.
  assert (Hw1 : (clock w + 5 * time.Second <= clock w1)%Z).
  { destruct Hprompt as [_ Hdel].
    pose proof (Hdel (rdId (d w)) (remote w)) as Htook.
    unfold w1, slept, called, logged, emitted, time.Second. cbn [clock remote].
    lia. }
  lia.
Qed.

(** *** What success means *)

(** X5. Delete reports success only when the client accepted the delete and
    the last confirmation get came back with an error whose status is
    classified as not-found; it ends right after logging that. *)
Theorem delete_success_means_not_found fuel (w w' : World R) :
  delete fuel w = Returned [] w' ->
  replyOf (deleteRoutingQueue proxy (rdId (d w))) w = None /\
  exists w0 q respCode err,
    d w0 = d w /\
    getReply proxy w0 = (q, respCode, Some err) /\
    IsStatus404ByInt respCode = true /\
    w' = logged ("Deleted routing queue " +:+ rdId (d w)) (gotten proxy w0).
Proof.
  rewrite delete_waits_then_polls.
  destruct (replyOf _ w) as [err|]; [discriminate|].
  unfold WithRetries, bind, time_Now. intros Hrun. split; [reflexivity|].
  destruct (pollUntil_success (fun w1 w2 => d w2 = d w1)
              (fun _ => eq_refl) (fun _ _ _ H1 H2 => eq_trans H2 H1)
              _ delete_check_keeps_d _ _ _ _ _ Hrun) as (w0 & Hd & Hcheck).
  cbn [slept called logged emitted d] in Hd.
  rewrite delete_check_outcome in Hcheck.
  destruct (getReply proxy w0) as [[q code] [err|]] eqn:Hrep; [|discriminate].
  destruct (IsStatus404ByInt code) eqn:H404; [|discriminate].
  injection Hcheck as <-.
  exists w0, q, code, err. rewrite Hd. auto.
Qed.

(** X6. Read reports success only from an attempt whose get returned no
    error and a queue with a name: the world it ends in is the one in which
    the values of that queue were set, the consistency checker had nothing to
    object to, and the local name is the observed one. *)
Theorem read_success_means_reconciled fuel (w w' : World R) :
  read fuel w = Returned [] w' ->
  exists w0 q respCode name,
    rdId (d w0) = rdId (d w) /\
    getReply proxy w0 = (Some q, respCode, None) /\
    Queue.Name q = Some name /\
    setQueueValues (Some q) (gotten proxy w0) = Returned tt w' /\
    CheckState (d w0) (d w') = None /\
    GetString (d w') "name" = name.
Proof.
  enter_read. intros Hrun.
  destruct (pollUntil_success keeps keeps_refl keeps_trans _ read_check_keeps
              _ _ _ _ _ Hrun) as (w0 & [Hid _] & Hcheck).
  cbn [logged emitted d] in Hid.
  rewrite read_check_outcome in Hcheck.
  destruct (getReply proxy w0) as [[[q|] code] [err|]] eqn:Hrep; try discriminate.
  destruct q as [qid [nm|] cpn et]; [|discriminate].
  exists w0, (Queue.mk qid (Some nm) cpn et), code, nm.
  destruct cpn as [c|], et as [e|];
    cbv [setQueueValues bind deref ret panic d_Set SetNillableValue modifyD
         Queue.Name Queue.CallingPartyName Queue.EnableTranscription] in Hcheck |- *;
    injection Hcheck as Hverdict <-;
    (split; [exact Hid|]); (split; [exact Hrep|]); (split; [reflexivity|]);
    (split; [reflexivity|]); (split; [exact Hverdict|]);
    unfold GetString; cbn [withD d Set_ rdAttrs]; simplify_map_eq; reflexivity.
Qed.

(** X7. The read callback sets the observed values before it asks the
    consistency checker: when the checker answers with a non-retryable
    error, read returns that error, and the local values have been
    overwritten all the same. *)
Theorem read_overwrites_before_checking fuel (w w' : World R) q respCode e :
  let w0 := logged ("Reading simple queue " +:+ rdId (d w)) w in
  getReply proxy w0 = (Some q, respCode, None) ->
  setQueueValues (Some q) (gotten proxy w0) = Returned tt w' ->
  CheckState (d w) (d w') = Some e ->
  Retryable e = false ->
  read (S fuel) w = Returned (diag.Errorf (Err e)) w' /\
  rdAttrs (d w') !! "name" = VString <$> Queue.Name q.
Proof.
  intros w0 Hrep Hset Hverdict Hterm. split.
  - enter_read. fold w0. cbn [pollUntil]. unfold bind.
    rewrite read_check_outcome, Hrep, Hset.
    change (d w0) with (d w). rewrite Hverdict, Hterm. reflexivity.
  - destruct q as [qid [nm|] [c|] [et|]];
      cbv [setQueueValues bind deref ret panic d_Set SetNillableValue modifyD
           Queue.Name Queue.CallingPartyName Queue.EnableTranscription] in Hset;
      try discriminate; injection Hset as <-;
      cbn [withD d Set_ rdAttrs Queue.Name]; simplify_map_eq; reflexivity.
Qed.

(** *** Composition *)

(** X8. What read sets, update sends: right after the values of a queue with
    all three fields were set, update asks the client to update the current
    identity with exactly those three values. *)
Theorem update_sends_what_read_set fuel (w : World R) qid name callingPartyName
    enableTranscription :
  let q := Queue.mk qid (Some name) (Some callingPartyName) (Some enableTranscription) in
  let w' := final (setQueueValues (Some q) w) in
  exists ext,
    trace (final (update fuel w')) =
    trace w ++ [EvLog ("Updating simple queue " +:+ rdId (d w));
                EvUpdate (rdId (d w))
                  (Queuerequest.mk (Some name) (Some callingPartyName)
                     (Some enableTranscription))] ++ ext.
Proof.
  intros q w'.
  assert (Hreq : queueUpdateOf (d w') =
                 Queuerequest.mk (Some name) (Some callingPartyName)
                   (Some enableTranscription)).
  { unfold queueUpdateOf, GetString, GetBool, w', q.
    cbv [setQueueValues bind deref ret d_Set SetNillableValue modifyD final
         Queue.Name Queue.CallingPartyName Queue.EnableTranscription].
    cbn [withD d Set_ rdAttrs]. simplify_map_eq. reflexivity. }
  pose proof (update_outcome proxy IsStatus404ByInt CheckState readCeiling fuel w') as Hu.
  cbv zeta in Hu. rewrite Hu, Hreq. clear Hu.
  change (rdId (d w')) with (rdId (d w)). change (trace w) with (trace w').
  set (w1 := called _ _ _).
  assert (Hw1 : trace w1 = trace w' ++
            [EvLog ("Updating simple queue " +:+ rdId (d w));
             EvUpdate (rdId (d w))
               (Queuerequest.mk (Some name) (Some callingPartyName)
                  (Some enableTranscription))]).
  { unfold w1. cbn [called logged emitted trace]. rewrite <- app_assoc. reflexivity. }
  destruct (snd (replyOf _ w')).
  - exists []. rewrite app_nil_r. exact Hw1.
  - destruct (read_reads proxy IsStatus404ByInt CheckState readCeiling fuel w1)
      as [_ (ext & Htr & _)].
    exists ext. rewrite Htr, Hw1, <- app_assoc. reflexivity.
Qed.

(** X9. A payload with all three fields overrides whatever an earlier
    payload set: setting the values of one queue and then those of a complete
    one ends exactly as setting those of the complete one alone. *)
Theorem complete_payload_overrides (w : World R) qid1 name1 cpn1 et1 qid2 name2 cpn2 et2 :
  (setQueueValues (Some (Queue.mk qid1 (Some name1) cpn1 et1)) ;;
   setQueueValues (Some (Queue.mk qid2 (Some name2) (Some cpn2) (Some et2)))) w =
  setQueueValues (Some (Queue.mk qid2 (Some name2) (Some cpn2) (Some et2))) w.
Proof.
  destruct cpn1 as [c1|], et1 as [e1|];
    cbv [setQueueValues bind deref ret panic d_Set SetNillableValue modifyD withD
         Queue.Name Queue.CallingPartyName Queue.EnableTranscription
         d remote clock trace Set_ rdId rdAttrs];
    do 3 f_equal; apply map_eq; intros key;
    rewrite !lookup_insert; repeat case_decide; congruence.
Qed.

(** *** Panics *)

Lemma pollUntil_no_panic (check : M R (option RetryError)) start ceiling :
  (forall w w', check w <> Panicked w') ->
  forall fuel w w', pollUntil fuel start ceiling check w <> Panicked w'.
Proof.
  intros Hc fuel. induction fuel as [|fuel IH]; intros w w'; cbn [pollUntil].
  - discriminate.
  - unfold bind. pose proof (Hc w) as Hw.
    destruct (check w) as [[e|] w1| w1| w1]; try discriminate.
    + destruct (Retryable e); [|discriminate].
      unfold time_Now.
      destruct (ceiling <=? clock w1 - start)%Z; [discriminate|]. apply IH.
    + exfalso. exact (Hw w1 eq_refl).
Qed.

(** X10. Delete dereferences nothing: unlike create and read, it never
    panics, whatever the proxy replies. *)
Theorem delete_never_panics fuel (w w' : World R) :
  delete fuel w <> Panicked w'.
Proof.
  rewrite delete_waits_then_polls.
  destruct (replyOf _ w); [discriminate|].
  unfold WithRetries, bind, time_Now.
  apply pollUntil_no_panic. intros w0 w0'.
  rewrite delete_check_outcome.
  destruct (getReply proxy w0) as [[q code] [err|]]; [|discriminate].
  destruct (IsStatus404ByInt code); discriminate.
Qed.

End LifecycleInvariants.

(** ** Runs against the scripted proxy, continued *)

Lemma delete_takes_the_grace_period_witness :
  (0 + 5 * time.Second <=
   clock (final (deleteSimpleRoutingQueue (scripted healthy) isStatus404 5
                   (start existing))))%Z.
Proof.
  apply (delete_takes_the_grace_period (scripted healthy) isStatus404 5 (start existing)).
  - split; intros id r; vm_compute; discriminate.
  - reflexivity.
Defined.

Lemma delete_success_means_not_found_witness :
  let w' := final (deleteSimpleRoutingQueue (scripted vanishing) isStatus404 5
                     (start existing)) in
  replyOf (deleteRoutingQueue (scripted vanishing) "Q-1") (start existing) = None /\
  exists w0 q respCode err,
    d w0 = existing /\
    getReply (scripted vanishing) w0 = (q, respCode, Some err) /\
    isStatus404 respCode = true /\
    w' = logged "Deleted routing queue Q-1" (gotten (scripted vanishing) w0).
Proof.
  intros w'.
  apply (delete_success_means_not_found (scripted vanishing) isStatus404 5
           (start existing) w').
  vm_compute. reflexivity.
Defined.

Lemma read_success_means_reconciled_witness :
  let w' := final (readSimpleRoutingQueue (scripted lagging) isStatus404 consistent
                     sampleCeiling 5 (start stale)) in
  exists w0 q respCode name,
    rdId (d w0) = "Q-1" /\
    getReply (scripted lagging) w0 = (Some q, respCode, None) /\
    Queue.Name q = Some name /\
    setQueueValues (Some q) (gotten (scripted lagging) w0) = Returned tt w' /\
    consistent (d w0) (d w') = None /\
    GetString (d w') "name" = name.
Proof.
  intros w'.
  apply (read_success_means_reconciled (scripted lagging) isStatus404 consistent
           sampleCeiling 5 (start stale) w').
  vm_compute. reflexivity.
Defined.

Lemma read_overwrites_before_checking_witness :
  let w' := final (setQueueValues (Some supportQueue)
                     (gotten (scripted healthy)
                        (logged "Reading simple queue Q-1" (start stale)))) in
  readSimpleRoutingQueue (scripted healthy) isStatus404 rejecting sampleCeiling 1
    (start stale) = Returned (diag.Errorf "state mismatch") w' /\
  rdAttrs (d w') !! "name" = Some (VString "Support").
Proof.
  intros w'.
  apply (read_overwrites_before_checking (scripted healthy) isStatus404 rejecting
           sampleCeiling 0 (start stale) w' supportQueue 200%Z
           (mkRetryError "state mismatch" false));
    reflexivity.
Defined.
